(** * The UI element view of bokehjs ([models/ui/ui_element.ts])

    A shallow embedding of [UIElementView]: the enumeration of style
    sources, the composition of inline styles, stylesheets and classes,
    the visibility override, the cached bounding box and the snapshot
    of the view.

    The view is an object whose methods mutate it and call into
    inherited or host code that lives outside this file of the
    repository.  A method [m(): void] becomes a function [View -> View];
    a method that returns a value and may mutate becomes a function into
    a pair.  Calls to inherited and host procedures whose bodies are not
    part of the file ([this.empty()], [super._apply_stylesheets(..)],
    [this._apply_classes(..)], [this.finish()], [logger.trace(..)], the
    assignment [this.el.style[name] = value]) are recorded, in program
    order, in the [calls] field of the view. *)

From Stdlib Require Import String Ascii List ZArith QArith Qround Bool Lia.
Import ListNotations.

Set Implicit Arguments.

Local Open Scope string_scope.
Local Open Scope list_scope.

(* ================================================================== *)
(** ** Numbers of the host surface *)

(** The geometry of the host surface is made of JavaScript numbers.  The
    view uses three things of them: the literal [0], the subtraction
    [a - b] and [Math.round].  They are kept abstract, so that what is
    proved holds for the doubles of the host as for any other model;
    [Math.round(0)] is [0]. *)
Class HostNumber (num : Type) : Type := {
  num_zero : num;
  num_sub : num -> num -> num;
  num_round : num -> num;
  num_round_zero : num_round num_zero = num_zero
}.

(** [Math.round] on an exact rational: the nearest integer, a tie going
    up. *)
Definition Qround_half_up (q : Q) : Q := inject_Z (Qfloor (q + (1 # 2))).

(** The rationals as numbers, used to evaluate the view on concrete
    geometry. *)
#[export] Instance Q_HostNumber : HostNumber Q := {
  num_zero := 0%Q;
  num_sub := Qminus;
  num_round := Qround_half_up;
  num_round_zero := eq_refl
}.

(* ================================================================== *)
(** ** Values and strings *)

(** A value of type [unknown], as a style source can hold it. *)
Inductive JSValue : Type :=
| JString (s : string)
| JNull
| JNumber (n : Z)
| JBoolean (b : bool).

(** [isString] of [core/util/types]. *)
Definition isString (value : JSValue) : bool :=
  match value with
  | JString _ => true
  | _ => false
  end.

(** [attr.replace(/_/g, "-")]: every underscore becomes a dash. *)
Fixpoint replace_underscores (attr : string) : string :=
  match attr with
  | EmptyString => EmptyString
  | String c rest =>
      String (if Ascii.eqb c "_"%char then "-"%char else c)
             (replace_underscores rest)
  end.

(** The line feed, and [lines.join("\n")]. *)
Definition newline : string := String "010"%char EmptyString.

Definition join_lines (lines : list string) : string :=
  String.concat newline lines.

(** [output.push(x)]. *)
Definition push {A : Type} (output : list A) (x : A) : list A :=
  output ++ [x].

(* ================================================================== *)
(** ** Style sources *)

(** A property of a [Styles] model, as its iterator gives it: [prop.attr]
    and [prop.get_value()]. *)
Record Property : Type := mkProperty {
  attr : string;
  get_value : JSValue
}.

(** [CSSStyles | Styles]: a plain object, whose entries come in insertion
    order, or an instance of the [Styles] model, iterated property by
    property. *)
Inductive StyleSource : Type :=
| CSSStyles (entries : list (string * JSValue))
| Styles (props : list Property).

(** Modelled from the spec: the class [StyleSheet] of [core/dom], whose
    definition is not in this file.  A style sheet is an opaque
    identifier and its current CSS text; [clear()] sets the text to
    empty and [replace(text)] sets it. *)
Record StyleSheet : Type := mkStyleSheet {
  sheet_id : nat;
  css : string
}.

Definition clear (s : StyleSheet) : StyleSheet :=
  mkStyleSheet (sheet_id s) "".

Definition replace (text : string) (s : StyleSheet) : StyleSheet :=
  mkStyleSheet (sheet_id s) text.

(** [StyleSheetLike = StyleSheet | string]. *)
Inductive StyleSheetLike : Type :=
| CssText (text : string)
| Sheet (s : StyleSheet).

(** What the module imports and the view inherits, and whose definition
    is not in this file: the property names of the base model
    ([keys(Model.prototype._props)]), the text of [styles/ui.css], and
    the results of the inherited [css_classes()], [styles()] and
    [serializable_state()]. *)
Class Imports : Type := {
  Model_props : list string;
  ui_css : string;
  css_classes : list string;
  super_styles : list StyleSheetLike;
  super_serializable_state : list (string * JSValue)
}.

(** [model_attrs.has(name)] for [model_attrs = new Set(keys(Model.prototype._props))]. *)
Definition model_attrs_has `{Imports} (name : string) : bool :=
  existsb (String.eqb name) Model_props.

(** [_iter_styles]: the pairs a style source yields, in order. *)
Definition _iter_styles `{Imports} (styles : StyleSource)
  : list (string * JSValue) :=
  match styles with
  | Styles props =>
      flat_map
        (fun prop =>
           if negb (model_attrs_has (attr prop))
           then [(attr prop, get_value prop)]
           else [])
        props
  | CSSStyles entries => entries
  end.

(* ================================================================== *)
(** ** The model *)

(** An entry of [model.stylesheets] or of a list given to
    [_apply_stylesheets]: a style sheet or a text, or a plain object that
    maps selectors to style sources, its entries in the order in which
    [entries()] gives them, which is the order of insertion. *)
Inductive StyleSheetItem : Type :=
| Like (stylesheet : StyleSheetLike)
| Rules (entries : list (string * StyleSource)).

(** [isPlainObject]: neither a string nor an instance of a class. *)
Definition isPlainObject (stylesheet : StyleSheetItem) : bool :=
  match stylesheet with
  | Rules _ => true
  | Like _ => false
  end.

(** The properties of [UIElement], and [type], the name of the concrete
    model. *)
Module UIElement.
Record t : Type := mk {
  type : string;
  visible : bool;
  classes : list string;
  styles : StyleSource;
  stylesheets : list StyleSheetItem
}.

(** The defaults that [define] declares. *)
Definition defaults (type : string) : t :=
  mk type true [] (CSSStyles []) [].
End UIElement.

(* ================================================================== *)
(** ** The host surface *)

(** [DOMRect], the result of [getBoundingClientRect()]. *)
Record DOMRect (num : Type) : Type := mkDOMRect {
  rect_left : num;
  rect_top : num;
  rect_width : num;
  rect_height : num
}.

(** What the view reads of an element: [offsetParent] (a node of the
    host, or null), its bounding rectangle, and which names are in its
    [style] object ([name in el.style]). *)
Record HTMLElement (num : Type) : Type := mkHTMLElement {
  offsetParent : option nat;
  getBoundingClientRect : DOMRect num;
  style_has : string -> bool
}.

(** Modelled from the spec: the class [BBox] of [core/util/bbox], whose
    definition is not in this file.  A box is [{left, top, width,
    height}]; the default box has all fields zero; [box] gives its four
    numeric fields. *)
Record BBox (num : Type) : Type := new_BBox {
  left : num;
  top : num;
  width : num;
  height : num
}.

Definition new_BBox_default {num : Type} `{HostNumber num} : BBox num :=
  new_BBox num_zero num_zero num_zero num_zero.

Definition box {num : Type} (b : BBox num) : num * num * num * num :=
  (left b, top b, width b, height b).

(** A call into inherited or host code, as the view makes it.  The code
    that is called is outside this class and does not write the fields
    that the class declares ([_bbox] is private to it); what it does to
    the host is not modelled further than the call. *)
Inductive Call : Type :=
| StyleAssign (name value : string)   (* this.el.style[name] = value *)
| LoggerTrace (message : string)      (* logger.trace(message) *)
| Empty                               (* this.empty() *)
| SuperApplyStylesheets (stylesheets : list StyleSheetLike)
| ApplyClasses (classes : list string) (* this._apply_classes(classes) *)
| Finish                              (* this.finish() *)
| SuperInitialize
| SuperRemove.

(** The parent view, of which the view reads only [el]. *)
Record DOMElementView (num : Type) : Type := mkDOMElementView {
  parent_el : HTMLElement num
}.

(** The [ResizeObserver] of the view, whose callback is [after_resize]:
    whether it still observes [el]. *)
Record ResizeObserver : Type := mkResizeObserver {
  observing : bool
}.

(* ================================================================== *)
(** ** The view *)

Record View (num : Type) : Type := mkView {
  model : UIElement.t;
  el : HTMLElement num;
  parent : option (DOMElementView num);
  _display : StyleSheet;
  style : StyleSheet;
  _bbox : option (BBox num);
  _resize_observer : option ResizeObserver;
  calls : list Call
}.

Section Updates.
Context {num : Type}.

Definition with_model (m : UIElement.t) (v : View num) : View num :=
  mkView m (el v) (parent v) (_display v) (style v) (_bbox v)
         (_resize_observer v) (calls v).

Definition with__display (s : StyleSheet) (v : View num) : View num :=
  mkView (model v) (el v) (parent v) s (style v) (_bbox v)
         (_resize_observer v) (calls v).


Definition with__bbox (b : option (BBox num)) (v : View num) : View num :=
  mkView (model v) (el v) (parent v) (_display v) (style v) b
         (_resize_observer v) (calls v).


(** The view after one more call into inherited or host code. *)
Definition call (c : Call) (v : View num) : View num :=
  mkView (model v) (el v) (parent v) (_display v) (style v) (_bbox v)
         (_resize_observer v) (calls v ++ [c]).

(** The view after several more calls. *)
Definition after_calls (cs : list Call) (v : View num) : View num :=
  mkView (model v) (el v) (parent v) (_display v) (style v) (_bbox v)
         (_resize_observer v) (calls v ++ cs).

(** The application assigns [model.visible], [model.styles]. *)
Definition set_visible (visible : bool) (v : View num) : View num :=
  let m := model v in
  with_model (UIElement.mk (UIElement.type m) visible (UIElement.classes m)
                           (UIElement.styles m) (UIElement.stylesheets m)) v.

Definition set_styles (styles : StyleSource) (v : View num) : View num :=
  let m := model v in
  with_model (UIElement.mk (UIElement.type m) (UIElement.visible m)
                           (UIElement.classes m) styles
                           (UIElement.stylesheets m)) v.
End Updates.

(** A snapshot of a view: an object whose fields are plain values or the
    four numbers of a box. *)
Inductive SValue (num : Type) : Type :=
| SPlain (value : JSValue)
| SBox (b : num * num * num * num).

Definition SerializableState (num : Type) : Type := list (string * SValue num).

(** [{...object, key: value}]: the key keeps its place when the object
    has it, and comes last when it does not. *)
Fixpoint object_set {A : Type} (key : string) (value : A)
  (object : list (string * A)) : list (string * A) :=
  match object with
  | [] => [(key, value)]
  | (k, x) :: rest =>
      if String.eqb k key then (k, value) :: rest
      else (k, x) :: object_set key value rest
  end.

Section Methods.
Context {num : Type} `{HostNumber num} `{Imports}.

(** [get stylesheets] and [_stylesheets]. *)
Definition stylesheets (v : View num) : list StyleSheet :=
  [style v; _display v].

(** [_classes]. *)
Definition _classes (v : View num) : list string :=
  [("bk-" ++ UIElement.type (model v))%string].

(** [get classes]. *)
Definition classes (v : View num) : list string :=
  css_classes ++ _classes v.

(** [styles()]. *)
Definition styles (v : View num) : list StyleSheetLike :=
  super_styles ++ [CssText ui_css].


(** [_update_bbox]. *)
Definition _update_bbox (v : View num) : View num :=
  let bbox :=
    match offsetParent (el v) with
    | Some _ =>
        let self := getBoundingClientRect (el v) in
        let '(left, top) :=
          match parent v with
          | Some p =>
              let parent := getBoundingClientRect (parent_el p) in
              (num_sub (rect_left self) (rect_left parent),
               num_sub (rect_top self) (rect_top parent))
          | None => (num_zero, num_zero)
          end in
        new_BBox (num_round left) (num_round top)
                 (num_round (rect_width self))
                 (num_round (rect_height self))
    | None => new_BBox_default
    end in
  with__bbox (Some bbox) v.


(** [get bbox]: the cached box, computed first when there is none.  The
    result is [this._bbox!], which the type system takes to be
    defined. *)
Definition bbox (v : View num) : option (BBox num) * View num :=
  let v := match _bbox v with
           | None => _update_bbox v
           | Some _ => v
           end in
  (_bbox v, v).






(** [get _is_displayed]. *)
Definition _is_displayed (v : View num) : bool :=
  match offsetParent (el v) with
  | Some _ => true
  | None => false
  end.


(** The closure [apply] of [_apply_styles]: the assignment is made when
    [known && isString(value)], and the result is [known]. *)
Definition apply (name : string) (value : JSValue) (v : View num)
  : bool * View num :=
  let known := style_has (el v) name in
  (known,
   match value with
   | JString s => if known then call (StyleAssign name s) v else v
   | _ => v
   end).

(** The body of the loop of [_apply_styles]. *)
Definition _apply_styles_body (v : View num) (entry : string * JSValue)
  : View num :=
  let '(attr, value) := entry in
  let name := replace_underscores attr in
  let '(known, v) := apply name value v in
  if negb known then
    let '(known_webkit, v) := apply ("-webkit-" ++ name)%string value v in
    if negb known_webkit then
      let '(known_moz, v) := apply ("-moz-" ++ name)%string value v in
      if negb known_moz then
        call (LoggerTrace ("unknown CSS property '" ++ name ++ "'")%string) v
      else v
    else v
  else v.

(** [_apply_styles]. *)
Definition _apply_styles (v : View num) : View num :=
  fold_left _apply_styles_body
            (_iter_styles (UIElement.styles (model v))) v.

(** The inner loop of [_apply_stylesheets]: a line is pushed for every
    pair whose value is a string that is not empty. *)
Definition push_declarations (output : list string) (styles : StyleSource)
  : list string :=
  fold_left
    (fun output '(attr, value) =>
       let name := replace_underscores attr in
       match value with
       | JString s =>
           if negb (Nat.eqb (String.length s) 0)
           then push output ("  " ++ name ++ ": " ++ s ++ ";")%string
           else output
       | _ => output
       end)
    (_iter_styles styles) output.

(** The outer loop of [_apply_stylesheets]: the lines of a plain
    object. *)
Definition output_lines (stylesheet : list (string * StyleSource))
  : list string :=
  fold_left
    (fun output '(selector, styles) =>
       let output := push output (selector ++ " {")%string in
       let output := push_declarations output styles in
       push output "}"%string)
    stylesheet [].

(** The function that [_apply_stylesheets] maps over its argument. *)
Definition stylesheet_text (stylesheet : StyleSheetItem) : StyleSheetLike :=
  match stylesheet with
  | Rules entries => CssText (join_lines (output_lines entries))
  | Like s => s
  end.

(** [_apply_stylesheets]. *)
Definition _apply_stylesheets (stylesheets : list StyleSheetItem)
  (v : View num) : View num :=
  call (SuperApplyStylesheets (map stylesheet_text stylesheets)) v.

(** [_apply_visible]. *)
Definition _apply_visible (v : View num) : View num :=
  if UIElement.visible (model v)
  then with__display (clear (_display v)) v
  else with__display
         (replace ":host { display: none !important; }" (_display v)) v.

(** [render]. *)
Definition render (v : View num) : View num :=
  let v := call Empty v in
  let v := _apply_stylesheets (map Like (styles v)) v in
  let v := _apply_stylesheets
             (map (fun s => Like (Sheet s)) (stylesheets v)) v in
  let v := _apply_stylesheets (UIElement.stylesheets (model v)) v in
  let v := _apply_styles v in
  let v := call (ApplyClasses (classes v)) v in
  let v := call (ApplyClasses (UIElement.classes (model v))) v in
  _apply_visible v.

(** [serializable_state]: the snapshot, and the view after the call.
    There is no snapshot when [this.bbox] is undefined. *)
Definition serializable_state (v : View num)
  : option (SerializableState num) * View num :=
  let super := map (fun '(k, x) => (k, SPlain num x))
                   super_serializable_state in
  let '(b, v) := bbox v in
  (match b with
   | Some b => Some (object_set "bbox" (SBox (box b)) super)
   | None => None
   end, v).
End Methods.

(* ================================================================== *)
(** ** What the specification says, as definitions of its own *)

Section Specification.
Context `{Imports}.

(** Whether an attribute is outside the property names of the base
    model. *)
Definition not_base_attribute (entry : string * JSValue) : bool :=
  negb (model_attrs_has (fst entry)).

(** The pairs a typed style record carries. *)
Definition pairs_of (props : list Property) : list (string * JSValue) :=
  map (fun prop => (attr prop, get_value prop)) props.

(** The enumeration of a style source: a plain mapping gives its pairs;
    a typed record gives its pairs but for those of the base model. *)
Definition spec_enumerate (styles : StyleSource)
  : list (string * JSValue) :=
  match styles with
  | CSSStyles entries => entries
  | Styles props => filter not_base_attribute (pairs_of props)
  end.

(** The names tried for a normalized name, in order. *)
Definition name_variants (name : string) : list string :=
  [name; ("-webkit-" ++ name)%string; ("-moz-" ++ name)%string].

(** The calls that one pair of a style source gives rise to: the first
    recognized variant is assigned when the value is a string; when no
    variant is recognized the unknown property is traced. *)
Definition spec_style_calls (recognized : string -> bool)
  (entry : string * JSValue) : list Call :=
  let name := replace_underscores (fst entry) in
  match find recognized (name_variants name) with
  | Some variant =>
      match snd entry with
      | JString s => [StyleAssign variant s]
      | _ => []
      end
  | None => [LoggerTrace ("unknown CSS property '" ++ name ++ "'")%string]
  end.

(** Whether a value is a string that is not empty. *)
Definition nonempty_string (value : JSValue) : bool :=
  match value with
  | JString s => negb (Nat.eqb (String.length s) 0)
  | _ => false
  end.

(** The declaration line of a pair, if its value is a string that is
    not empty. *)
Definition spec_declaration (entry : string * JSValue) : list string :=
  match snd entry with
  | JString EmptyString => []
  | JString s =>
      [("  " ++ replace_underscores (fst entry) ++ ": " ++ s ++ ";")%string]
  | _ => []
  end.

(** The block of a selector. *)
Definition spec_block (entry : string * StyleSource) : list string :=
  [(fst entry ++ " {")%string]
    ++ flat_map spec_declaration (_iter_styles (snd entry))
    ++ ["}"%string].

(** The text of a stylesheet map. *)
Definition spec_stylesheet_text (entries : list (string * StyleSource))
  : string :=
  join_lines (flat_map spec_block entries).
End Specification.

(** Whether the value of a pair is a string. *)
Definition string_valued (entry : string * JSValue) : bool :=
  isString (snd entry).

(** The assignments to the style of the element among the calls. *)
Definition style_assignments (cs : list Call) : list Call :=
  filter (fun c => match c with
                   | StyleAssign _ _ => true
                   | _ => false
                   end) cs.

(** The class names among the calls, in the order of application. *)
Definition applied_classes (cs : list Call) : list string :=
  flat_map (fun c => match c with
                     | ApplyClasses classes => classes
                     | _ => []
                     end) cs.

(* ================================================================== *)
(** ** The export of a view, and reading a snapshot *)

(** The argument [type] of [export]: ["auto"], ["png"] or ["svg"]. *)
Inductive ExportType : Type :=
| type_auto
| type_png
| type_svg.

(** The backend of a canvas layer: ["canvas"] or ["svg"]. *)
Inductive OutputBackend : Type :=
| backend_canvas
| backend_svg.

(** Modelled from the spec: the class [CanvasLayer] of
    [core/util/canvas], whose definition is not in this file.  A layer
    is a fresh target of a backend kind and a pixel density flag, and
    [resize(width, height)] gives it its size. *)
Record CanvasLayer (num : Type) : Type := mkCanvasLayer {
  output_backend : OutputBackend;
  layer_hidpi : bool;
  layer_size : option (num * num)
}.

Definition new_CanvasLayer {num : Type} (backend : OutputBackend)
  (hidpi : bool) : CanvasLayer num :=
  mkCanvasLayer backend hidpi None.

Definition resize {num : Type} (width height : num) (canvas : CanvasLayer num)
  : CanvasLayer num :=
  mkCanvasLayer (output_backend canvas) (layer_hidpi canvas)
                (Some (width, height)).

(** The host lays the element out anew: the view has the same fields
    but for what it reads of [el]. *)
Definition with_el {num : Type} (e : HTMLElement num) (v : View num)
  : View num :=
  mkView (model v) e (parent v) (_display v) (style v) (_bbox v)
         (_resize_observer v) (calls v).

(** [object[key]]: the value of a field of an object, if it has it. *)
Fixpoint object_get {A : Type} (key : string) (object : list (string * A))
  : option A :=
  match object with
  | [] => None
  | (k, x) :: rest =>
      if String.eqb k key then Some x else object_get key rest
  end.

Section ExportOfAView.
Context {num : Type} `{HostNumber num} `{Imports}.

(** [export]: an argument that is left out has its default, ["auto"] and
    [true].  The result is the layer and the view after the call; there
    is no layer when [this.bbox] is undefined. *)
Definition export (type : option ExportType) (hidpi : option bool)
  (v : View num) : option (CanvasLayer num) * View num :=
  let type := match type with Some t => t | None => type_auto end in
  let hidpi := match hidpi with Some h => h | None => true end in
  let output_backend :=
    match type with
    | type_auto | type_png => backend_canvas
    | type_svg => backend_svg
    end in
  let canvas := new_CanvasLayer output_backend hidpi in
  let '(b, v) := bbox v in
  (match b with
   | Some b => Some (resize (width b) (height b) canvas)
   | None => None
   end, v).
End ExportOfAView.

(* ================================================================== *)
(** ** Concrete views to evaluate the methods on *)

(** An environment: base property names, the imported text and the
    inherited results. *)
#[export] Instance example_imports : Imports := {
  Model_props := ["tags"; "name"; "syncable"]%string;
  ui_css := ":host { position: relative; }"%string;
  css_classes := [];
  super_styles := [CssText "* { box-sizing: border-box; }"%string];
  super_serializable_state := [("type"%string, JString "button"%string)]
}.

(** A host whose style object has these names. *)
Definition example_style_has (name : string) : bool :=
  existsb (String.eqb name)
          ["color"; "width"; "-webkit-line-clamp"; "-moz-appearance"]%string.

(** An element laid out at (5.6, 7), 10.5 wide and 20 high, and its
    parent at (2, 3). *)
Definition example_el : HTMLElement Q :=
  mkHTMLElement (Some 1%nat) (mkDOMRect (56 # 10) 7 (21 # 2) 20)%Q
                example_style_has.

Definition example_parent : DOMElementView Q :=
  mkDOMElementView
    (mkHTMLElement (Some 0%nat) (mkDOMRect 2 3 100 200)%Q example_style_has).

(** The same element when it is not displayed: no offset parent, an
    empty rectangle. *)
Definition example_hidden_el : HTMLElement Q :=
  mkHTMLElement None (mkDOMRect 0 0 0 0)%Q example_style_has.

(** A button with the classes [a] and [b]. *)
Definition example_model : UIElement.t :=
  UIElement.mk "button" true ["a"; "b"]%string
               (CSSStyles [("color", JString "red"); ("foo_bar", JNull)]%string)
               [].

(** A root view that was initialized, with no box cached yet. *)
Definition example_root : View Q :=
  mkView example_model example_el None
         (mkStyleSheet 1 "") (mkStyleSheet 0 "") None
         (Some (mkResizeObserver true)) [SuperInitialize].

(** A child view. *)
Definition example_child : View Q :=
  mkView example_model example_el (Some example_parent)
         (mkStyleSheet 1 "") (mkStyleSheet 0 "") None
         (Some (mkResizeObserver true)) [SuperInitialize].

(** A view whose element is no longer displayed, with the box of its
    last resize still cached. *)
Definition example_hidden : View Q :=
  mkView example_model example_hidden_el None
         (mkStyleSheet 1 "") (mkStyleSheet 0 "")
         (Some (new_BBox 0 0 11 20)%Q)
         (Some (mkResizeObserver true)) [SuperInitialize].


(* ================================================================== *)
(** ** Properties *)

Section Properties.
Context {num : Type} `{HostNumber num} `{Imports}.

Implicit Types (v : View num) (cs : list Call).

(** *** Calls *)

Lemma call_after_calls c v : call c v = after_calls [c] v.
Proof. reflexivity. Qed.

Lemma after_calls_nil v : after_calls [] v = v.
Proof. destruct v; unfold after_calls; simpl; now rewrite app_nil_r. Qed.

Lemma after_calls_app cs cs' v :
  after_calls cs' (after_calls cs v) = after_calls (cs ++ cs') v.
Proof. unfold after_calls; simpl; now rewrite app_assoc. Qed.

(** *** Enumeration of style sources *)

Lemma iter_styles_typed props :
  _iter_styles (Styles props) = filter not_base_attribute (pairs_of props).
Proof.
  unfold pairs_of; simpl.
  induction props as [|prop props IH]; simpl; [reflexivity|].
  unfold not_base_attribute at 1; simpl.
  destruct (model_attrs_has (attr prop)); simpl; now rewrite IH.
Qed.

Lemma iter_styles_spec (styles : StyleSource) :
  _iter_styles styles = spec_enumerate styles.
Proof. destruct styles; [reflexivity | apply iter_styles_typed]. Qed.

(** *** Inline styles *)

(** The body of the loop makes the calls that the specification gives
    for the pair, and nothing else. *)
Lemma apply_known name (value : JSValue) v :
  style_has (el v) name = true ->
  apply name value v
  = (true, match value with
           | JString s => call (StyleAssign name s) v
           | _ => v
           end).
Proof. unfold apply; intros ->; now destruct value. Qed.

Lemma apply_unknown name (value : JSValue) v :
  style_has (el v) name = false -> apply name value v = (false, v).
Proof. unfold apply; intros ->; now destruct value. Qed.

Lemma apply_styles_body_calls v (entry : string * JSValue) :
  _apply_styles_body v entry
  = after_calls (spec_style_calls (style_has (el v)) entry) v.
Proof.
  destruct entry as [a value].
  unfold _apply_styles_body, spec_style_calls, name_variants.
  cbn [fst snd find].
  set (name := replace_underscores a).
  set (webkit := ("-webkit-" ++ name)%string).
  set (moz := ("-moz-" ++ name)%string).
  destruct (style_has (el v) name) eqn:Hn.
  { rewrite (apply_known _ _ _ Hn); cbn [negb].
    destruct value; now rewrite ?after_calls_nil. }
  rewrite (apply_unknown _ _ _ Hn); cbn [negb].
  destruct (style_has (el v) webkit) eqn:Hw.
  { rewrite (apply_known _ _ _ Hw); cbn [negb].
    destruct value; now rewrite ?after_calls_nil. }
  rewrite (apply_unknown _ _ _ Hw); cbn [negb].
  destruct (style_has (el v) moz) eqn:Hm.
  { rewrite (apply_known _ _ _ Hm); cbn [negb].
    destruct value; now rewrite ?after_calls_nil. }
  rewrite (apply_unknown _ _ _ Hm); cbn [negb].
  reflexivity.
Qed.

Lemma apply_styles_fold (entries : list (string * JSValue)) v :
  fold_left _apply_styles_body entries v
  = after_calls (flat_map (spec_style_calls (style_has (el v))) entries) v.
Proof.
  revert v; induction entries as [|entry entries IH]; intro v; simpl.
  - now rewrite after_calls_nil.
  - rewrite apply_styles_body_calls, IH, after_calls_app. reflexivity.
Qed.

Lemma apply_styles_calls v :
  _apply_styles v
  = after_calls (flat_map (spec_style_calls (style_has (el v)))
                          (_iter_styles (UIElement.styles (model v)))) v.
Proof. apply apply_styles_fold. Qed.

(** *** Stylesheet maps *)

Lemma append_assoc (a b c : string) :
  ((a ++ b) ++ c)%string = (a ++ b ++ c)%string.
Proof. induction a as [|x a IH]; simpl; [reflexivity | now rewrite IH]. Qed.

Lemma push_declarations_spec (output : list string) (styles : StyleSource) :
  push_declarations output styles
  = output ++ flat_map spec_declaration (_iter_styles styles).
Proof.
  unfold push_declarations.
  generalize (_iter_styles styles) as entries.
  intro entries; revert output.
  induction entries as [|[a value] entries IH]; intro output; simpl.
  - now rewrite app_nil_r.
  - rewrite IH. unfold spec_declaration at 2; cbn [fst snd].
    destruct value as [s| | |]; try reflexivity.
    destruct s; simpl; [reflexivity|].
    unfold push. now rewrite <- app_assoc.
Qed.

Lemma output_lines_from (entries : list (string * StyleSource))
  (output : list string) :
  fold_left
    (fun output '(selector, styles) =>
       let output := push output (selector ++ " {")%string in
       let output := push_declarations output styles in
       push output "}"%string)
    entries output
  = output ++ flat_map spec_block entries.
Proof.
  revert output.
  induction entries as [|[selector styles] entries IH]; intro output; simpl.
  - now rewrite app_nil_r.
  - rewrite IH, push_declarations_spec. unfold push, spec_block; simpl.
    now rewrite <- !app_assoc.
Qed.

Lemma output_lines_spec (entries : list (string * StyleSource)) :
  output_lines entries = flat_map spec_block entries.
Proof. unfold output_lines. now rewrite output_lines_from. Qed.

Lemma no_declaration (entries : list (string * JSValue)) :
  (forall a value, In (a, value) entries -> nonempty_string value = false) ->
  flat_map spec_declaration entries = [].
Proof.
  induction entries as [|[a value] entries IH]; intro Hall; simpl.
  - reflexivity.
  - rewrite IH by (intros; eapply Hall; right; eassumption).
    specialize (Hall a value (or_introl eq_refl)).
    unfold spec_declaration; cbn [snd].
    destruct value as [s| | |]; try reflexivity.
    destruct s; [reflexivity | discriminate].
Qed.

(** *** Frames *)

Lemma applied_classes_app cs cs' :
  applied_classes (cs ++ cs') = applied_classes cs ++ applied_classes cs'.
Proof. apply flat_map_app. Qed.

Lemma applied_classes_style_calls (recognized : string -> bool)
  (entries : list (string * JSValue)) :
  applied_classes (flat_map (spec_style_calls recognized) entries) = [].
Proof.
  induction entries as [|entry entries IH]; simpl; [reflexivity|].
  rewrite applied_classes_app, IH, app_nil_r.
  unfold spec_style_calls.
  destruct (find _ _); [destruct (snd entry)|]; reflexivity.
Qed.

(** *** The style composer *)

(** C7. For every enumerated pair the attribute name has its
    underscores replaced by dashes; the unprefixed name is tried
    first, then the name with the prefix [-webkit-], then the name
    with the prefix [-moz-], and the first name the host recognizes is
    the one assigned (when the value is a string); when no variant
    is recognized the view gains one trace that names the unknown
    property and nothing else.  The loop goes on with the next pair
    in every case: [_apply_styles] is a total function, and its calls
    are those of the pairs, in the order of enumeration. *)
Theorem inline_style_fallback_chain v (attr : string) (value : JSValue) :
  let name := replace_underscores attr in
  let webkit := ("-webkit-" ++ name)%string in
  let moz := ("-moz-" ++ name)%string in
  let known := style_has (el v) in
  let assign n := match value with
                  | JString s => call (StyleAssign n s) v
                  | _ => v
                  end in
  (known name = true -> _apply_styles_body v (attr, value) = assign name)
  /\ (known name = false -> known webkit = true ->
      _apply_styles_body v (attr, value) = assign webkit)
  /\ (known name = false -> known webkit = false -> known moz = true ->
      _apply_styles_body v (attr, value) = assign moz)
  /\ (known name = false -> known webkit = false -> known moz = false ->
      _apply_styles_body v (attr, value)
      = call (LoggerTrace ("unknown CSS property '" ++ name ++ "'")%string) v)
  /\ _apply_styles v
     = after_calls
         (flat_map (spec_style_calls known)
                   (_iter_styles (UIElement.styles (model v)))) v.
Proof.
  intros name webkit moz known assign.
  assert (Hbody := apply_styles_body_calls v (attr, value)).
  unfold spec_style_calls, name_variants in Hbody.
  cbn [fst snd find] in Hbody.
  fold name webkit moz known in Hbody.
  repeat split.
  - intros Hn. rewrite Hbody, Hn. unfold assign.
    destruct value; now rewrite ?after_calls_nil.
  - intros Hn Hw. rewrite Hbody, Hn, Hw. unfold assign.
    destruct value; now rewrite ?after_calls_nil.
  - intros Hn Hw Hm. rewrite Hbody, Hn, Hw, Hm. unfold assign.
    destruct value; now rewrite ?after_calls_nil.
  - intros Hn Hw Hm. now rewrite Hbody, Hn, Hw, Hm.
  - apply apply_styles_calls.
Qed.

(** Only the pairs whose value is a string count for the assignments. *)
Lemma style_assignments_string_valued (recognized : string -> bool)
  (entries : list (string * JSValue)) :
  style_assignments (flat_map (spec_style_calls recognized) entries)
  = style_assignments
      (flat_map (spec_style_calls recognized) (filter string_valued entries)).
Proof.
  unfold style_assignments.
  induction entries as [|[a value] entries IH]; simpl; [reflexivity|].
  rewrite filter_app, IH. unfold string_valued at 2; cbn [snd].
  destruct value; cbn [isString flat_map]; rewrite ?filter_app;
    try reflexivity;
    unfold spec_style_calls; cbn [snd];
    now destruct (find _ _).
Qed.

(** A typed record holds every property it declares, those that are not
    set with a null value.  When its pairs with a string value are those
    of a plain mapping, [_apply_styles] makes for it the assignments it
    makes for the mapping without the attributes of the base model. *)
Lemma typed_record_with_unset_properties (props : list Property)
  (entries : list (string * JSValue)) v :
  filter string_valued (pairs_of props) = filter string_valued entries ->
  style_assignments (calls (_apply_styles (set_styles (Styles props) v)))
  = style_assignments
      (calls (_apply_styles
                (set_styles (CSSStyles (filter not_base_attribute entries)) v))).
Proof.
  intro Hsame. rewrite !apply_styles_calls.
  cbn [set_styles with_model model UIElement.styles el calls after_calls].
  rewrite iter_styles_typed. cbn [_iter_styles].
  assert (Happ : forall cs cs',
             style_assignments (cs ++ cs')
             = style_assignments cs ++ style_assignments cs')
    by (intros; apply filter_app).
  rewrite !Happ. f_equal.
  rewrite style_assignments_string_valued.
  rewrite (style_assignments_string_valued _ (filter not_base_attribute entries)).
  assert (Hswap : forall l : list (string * JSValue),
             filter string_valued (filter not_base_attribute l)
             = filter not_base_attribute (filter string_valued l)).
  { induction l as [|x l IHl]; simpl; [reflexivity|].
    destruct (not_base_attribute x) eqn:Hb, (string_valued x) eqn:Hs; simpl;
      rewrite ?Hb, ?Hs, IHl; reflexivity. }
  now rewrite !Hswap, Hsame.
Qed.

(** C4 (amended). For a pair whose value is not a string the loop of
    [_apply_styles] assigns no style, whether the host recognizes the
    name or not; it leaves the view as it is when the host recognizes
    the name or one of its prefixed variants, and traces the unknown
    property when the host recognizes none of them. *)
Theorem non_string_value_is_never_assigned v (attr : string)
  (value : JSValue) :
  isString value = false ->
  let name := replace_underscores attr in
  let known := style_has (el v) in
  _apply_styles_body v (attr, value)
  = if known name || known ("-webkit-" ++ name)%string
       || known ("-moz-" ++ name)%string
    then v
    else call (LoggerTrace ("unknown CSS property '" ++ name ++ "'")%string) v.
Proof.
  intros Hvalue name known.
  rewrite apply_styles_body_calls.
  unfold spec_style_calls, name_variants. cbn [fst snd find].
  fold name known.
  destruct (known name); cbn [orb].
  { destruct value; try discriminate; apply after_calls_nil. }
  destruct (known ("-webkit-" ++ name)%string); cbn [orb].
  { destruct value; try discriminate; apply after_calls_nil. }
  destruct (known ("-moz-" ++ name)%string).
  { destruct value; try discriminate; apply after_calls_nil. }
  reflexivity.
Qed.

(** C5. A typed style record and a plain mapping that carry the same
    pairs are enumerated alike, but for the attributes that are
    property names of the base model, which the typed form leaves out;
    and the calls that [_apply_styles] makes for the typed record are
    those it makes for the plain mapping without these attributes. *)
Theorem typed_and_plain_styles_agree (props : list Property)
  (entries : list (string * JSValue)) :
  pairs_of props = entries ->
  _iter_styles (Styles props)
  = filter not_base_attribute (_iter_styles (CSSStyles entries))
  /\ (forall a value,
        In (a, value) (_iter_styles (Styles props))
        <-> In (a, value) (_iter_styles (CSSStyles entries))
            /\ model_attrs_has a = false)
  /\ (forall v,
        calls (_apply_styles (set_styles (Styles props) v))
        = calls (_apply_styles
                   (set_styles
                      (CSSStyles (filter not_base_attribute entries)) v))).
Proof.
  intros <-. rewrite iter_styles_typed. simpl.
  split; [reflexivity|]. split.
  - intros a value. rewrite filter_In. unfold not_base_attribute; simpl.
    now rewrite negb_true_iff.
  - intro v. rewrite !apply_styles_calls.
    cbn [set_styles with_model model UIElement.styles el calls after_calls].
    now rewrite iter_styles_typed.
Qed.

(** C6. The text of a stylesheet map is, for each selector in the order
    of insertion, the line [selector {], one line [  name: value;] for
    each pair whose value is a string that is not empty, the
    underscores of the name replaced by dashes, and the line [}],
    joined by line feeds; the map [{".sel": {color: "red", bg_color:
    ""}}] gives [.sel {], [  color: red;], [}].  The text is a function
    of the map alone, and [_apply_stylesheets] touches the host only
    through the one inherited call that receives the texts. *)
Theorem stylesheet_map_rendering (entries : list (string * StyleSource)) :
  stylesheet_text (Rules entries) = CssText (spec_stylesheet_text entries)
  /\ stylesheet_text
       (Rules [(".sel"%string,
                CSSStyles [("color"%string, JString "red");
                           ("bg_color"%string, JString "")])])
     = CssText (".sel {" ++ newline ++ "  color: red;" ++ newline ++ "}")%string
  /\ (forall (stylesheets : list StyleSheetItem) v,
        _apply_stylesheets stylesheets v
        = after_calls
            [SuperApplyStylesheets (map stylesheet_text stylesheets)] v).
Proof.
  split; [|split].
  - unfold spec_stylesheet_text; simpl. now rewrite output_lines_spec.
  - reflexivity.
  - reflexivity.
Qed.

(** C10. A selector all of whose pairs are left out, their values not
    being strings or being empty, still gives its two lines: within
    any map its block is [selector {] followed at once by [}], and
    alone it gives the text [selector {], line feed, [}]. *)
Theorem selector_without_declarations (selector : string)
  (styles : StyleSource) (before after : list (string * StyleSource)) :
  (forall a value,
      In (a, value) (_iter_styles styles) -> nonempty_string value = false) ->
  output_lines (before ++ (selector, styles) :: after)
  = output_lines before
      ++ [(selector ++ " {")%string; "}"%string]
      ++ output_lines after
  /\ stylesheet_text (Rules [(selector, styles)])
     = CssText (selector ++ " {" ++ newline ++ "}")%string.
Proof.
  intro Hall. split.
  - rewrite !output_lines_spec, flat_map_app. simpl.
    unfold spec_block at 2; cbn [fst snd].
    now rewrite (no_declaration _ Hall).
  - simpl. rewrite output_lines_spec. simpl.
    unfold spec_block; cbn [fst snd].
    rewrite (no_declaration _ Hall). simpl.
    unfold join_lines; simpl. now rewrite append_assoc.
Qed.

(** *** The geometry tracker *)

Lemma is_displayed_true v :
  _is_displayed v = true -> exists node, offsetParent (el v) = Some node.
Proof.
  unfold _is_displayed. destruct (offsetParent (el v)) as [node|];
    [now exists node | discriminate].
Qed.

Lemma is_displayed_false v :
  _is_displayed v = false -> offsetParent (el v) = None.
Proof.
  unfold _is_displayed. now destruct (offsetParent (el v)).
Qed.

(** C1 (amended). Recomputing the box of a displayed element that has
    a parent view gives the rounded differences of the measured left
    and top of the element and of its parent, and the rounded measured
    width and height; of a displayed element that has no parent view,
    left and top zero and the rounded measured width and height; of
    an element that is not displayed, the default box, all zero. *)
Theorem update_bbox_rule v :
  let self := getBoundingClientRect (el v) in
  (forall p,
      _is_displayed v = true -> parent v = Some p ->
      let parent := getBoundingClientRect (parent_el p) in
      _bbox (_update_bbox v)
      = Some (new_BBox
                (num_round (num_sub (rect_left self) (rect_left parent)))
                (num_round (num_sub (rect_top self) (rect_top parent)))
                (num_round (rect_width self))
                (num_round (rect_height self))))
  /\ (_is_displayed v = true -> parent v = None ->
      _bbox (_update_bbox v)
      = Some (new_BBox num_zero num_zero
                       (num_round (rect_width self))
                       (num_round (rect_height self))))
  /\ (_is_displayed v = false ->
      _bbox (_update_bbox v)
      = Some (new_BBox num_zero num_zero num_zero num_zero)).
Proof.
  intro self. unfold _update_bbox. cbn [_bbox with__bbox].
  split; [|split].
  - intros p Hd Hp. destruct (is_displayed_true _ Hd) as [node ->].
    now rewrite Hp.
  - intros Hd Hp. destruct (is_displayed_true _ Hd) as [node ->].
    now rewrite Hp, num_round_zero.
  - intros Hd. now rewrite (is_displayed_false _ Hd).
Qed.

Lemma update_bbox_view v :
  exists b, _bbox (_update_bbox v) = Some b
            /\ _update_bbox v = with__bbox (Some b) v.
Proof. unfold _update_bbox. eexists; split; reflexivity. Qed.


(** *** The class composer *)

Lemma calls_apply_visible v : calls (_apply_visible v) = calls v.
Proof. unfold _apply_visible. now destruct (UIElement.visible (model v)). Qed.

Lemma render_calls v :
  calls (render v)
  = calls v
      ++ ([Empty;
           SuperApplyStylesheets (map stylesheet_text (map Like (styles v)));
           SuperApplyStylesheets
             (map stylesheet_text
                  (map (fun s => Like (Sheet s)) (stylesheets v)));
           SuperApplyStylesheets
             (map stylesheet_text (UIElement.stylesheets (model v)))]
          ++ flat_map (spec_style_calls (style_has (el v)))
                      (_iter_styles (UIElement.styles (model v))))
      ++ [ApplyClasses (classes v);
          ApplyClasses (UIElement.classes (model v))].
Proof.
  unfold render. rewrite calls_apply_visible.
  unfold _apply_stylesheets. rewrite apply_styles_calls.
  rewrite !call_after_calls, !after_calls_app.
  cbn [calls after_calls el model]. rewrite <- !app_assoc. reflexivity.
Qed.

(** C2 (amended). The query [classes] is the inherited classes
    followed by the one structural class, [bk-] and the name of the
    kind; the classes of the model are not part of it.  [render] hands
    to the host the result of [classes] and then the classes of the
    model, as declared, duplicates kept: for the kind [button] and the
    model classes [a], [b], and after the inherited classes, the host
    receives [bk-button], [a], [b] in this order. *)
Theorem classes_and_render_order v :
  classes v = css_classes ++ [("bk-" ++ UIElement.type (model v))%string]
  /\ (exists cs,
        calls (render v)
        = calls v ++ cs ++ [ApplyClasses (classes v);
                            ApplyClasses (UIElement.classes (model v))]
        /\ applied_classes cs = [])
  /\ applied_classes (calls (render v))
     = applied_classes (calls v)
         ++ css_classes
         ++ [("bk-" ++ UIElement.type (model v))%string]
         ++ UIElement.classes (model v)
  /\ (UIElement.type (model v) = "button"%string ->
      UIElement.classes (model v) = ["a"; "b"]%string ->
      classes v = css_classes ++ ["bk-button"%string]
      /\ applied_classes (calls (render v))
         = applied_classes (calls v)
             ++ css_classes ++ ["bk-button"; "a"; "b"]%string).
Proof.
  assert (Happlied :
    applied_classes (calls (render v))
    = applied_classes (calls v)
        ++ css_classes
        ++ [("bk-" ++ UIElement.type (model v))%string]
        ++ UIElement.classes (model v)).
  { rewrite render_calls, !applied_classes_app, applied_classes_style_calls.
    unfold classes, _classes. simpl.
    now rewrite app_nil_r, <- !app_assoc. }
  split; [reflexivity|]. split; [|split].
  - eexists. split; [apply render_calls|].
    rewrite applied_classes_app, applied_classes_style_calls. reflexivity.
  - exact Happlied.
  - intros Htype Hclasses. rewrite Happlied. unfold classes, _classes.
    rewrite Htype, Hclasses. split; reflexivity.
Qed.

(** *** Visibility *)

(** C8. From a state in which the override was applied with the
    element visible, hiding the element and showing it again gives
    back the same display style sheet (and the same view); in between
    the sheet holds the rule that hides the host. *)
Theorem visibility_round_trip v :
  let shown := _apply_visible (set_visible true v) in
  let hidden := _apply_visible (set_visible false shown) in
  let shown_again := _apply_visible (set_visible true hidden) in
  _display shown_again = _display shown
  /\ css (_display shown) = ""%string
  /\ css (_display hidden) = ":host { display: none !important; }"%string
  /\ shown_again = shown.
Proof. repeat split. Qed.

(** *** The snapshot *)

(** C9 (amended). [serializable_state] always returns a snapshot: the
    inherited snapshot with the field [bbox] set to the four numbers of
    the current box.  The view after the call differs from the view
    before at most in the cached box: when a box is cached the view is
    unchanged and the snapshot holds that box; when none is cached the
    call computes the box and caches it. *)
Theorem serializable_state_snapshot v :
  let super := map (fun '(k, x) => (k, SPlain num x))
                   super_serializable_state in
  exists b,
    fst (bbox v) = Some b
    /\ fst (serializable_state v)
       = Some (object_set "bbox" (SBox (box b)) super)
    /\ snd (serializable_state v) = with__bbox (Some b) v
    /\ (forall cached, _bbox v = Some cached ->
          b = cached /\ snd (serializable_state v) = v)
    /\ (_bbox v = None -> _bbox (_update_bbox v) = Some b).
Proof.
  intro super. unfold serializable_state, bbox.
  destruct (_bbox v) as [cached|] eqn:Hcached.
  - exists cached. cbn [fst snd]. rewrite Hcached.
    assert (Hsame : with__bbox (Some cached) v = v).
    { destruct v; unfold with__bbox; simpl in *; now subst. }
    repeat split; try reflexivity; congruence.
  - destruct (update_bbox_view v) as [b [Hb Hview]].
    exists b. cbn [fst snd]. rewrite Hb.
    repeat split; try reflexivity; try assumption; try discriminate.
Qed.
End Properties.

(* ================================================================== *)
(** ** The properties on concrete views *)

(** The fallback chain on the four kinds of name: recognized as it is,
    with [-webkit-], with [-moz-], and not at all. *)
Lemma inline_style_fallback_chain_witness :
  _apply_styles_body example_root ("color", JString "red")%string
  = call (StyleAssign "color" "red") example_root
  /\ _apply_styles_body example_root ("line_clamp", JString "3")%string
     = call (StyleAssign "-webkit-line-clamp" "3") example_root
  /\ _apply_styles_body example_root ("appearance", JString "none")%string
     = call (StyleAssign "-moz-appearance" "none") example_root
  /\ _apply_styles_body example_root ("foo_bar", JString "x")%string
     = call (LoggerTrace "unknown CSS property 'foo-bar'") example_root.
Proof.
  split; [|split; [|split]].
  - exact (proj1 (inline_style_fallback_chain
                    example_root "color" (JString "red")) eq_refl).
  - exact (proj1 (proj2 (inline_style_fallback_chain
                           example_root "line_clamp" (JString "3")))
                 eq_refl eq_refl).
  - exact (proj1 (proj2 (proj2 (inline_style_fallback_chain
                                  example_root "appearance" (JString "none"))))
                 eq_refl eq_refl eq_refl).
  - exact (proj1 (proj2 (proj2 (proj2 (inline_style_fallback_chain
                                         example_root "foo_bar" (JString "x")))))
                 eq_refl eq_refl eq_refl).
Defined.

(** A null value under a name the host recognizes with a prefix: the
    view is left as it is. *)
Lemma non_string_value_is_never_assigned_witness :
  isString JNull = false
  /\ _apply_styles_body example_root ("appearance"%string, JNull)
     = example_root.
Proof.
  split; [reflexivity|].
  exact (non_string_value_is_never_assigned
           example_root "appearance" JNull eq_refl).
Defined.

(** A null value under a name the host does not recognize in any
    variant: the unknown property is traced. *)
Lemma non_string_value_under_unknown_name_is_traced :
  isString JNull = false
  /\ calls (_apply_styles_body example_root ("foo_bar"%string, JNull))
     = calls example_root ++ [LoggerTrace "unknown CSS property 'foo-bar'"]
  /\ calls (_apply_styles_body example_root ("foo_bar"%string, JNull))
     <> calls example_root.
Proof.
  split; [reflexivity|]. split; [reflexivity|].
  vm_compute. discriminate.
Qed.

(** A typed record with a property of the base model, [name], and a
    style, [color]. *)
Lemma typed_and_plain_styles_agree_witness :
  pairs_of [mkProperty "name" (JString "x"); mkProperty "color" (JString "red")]
  = [("name", JString "x"); ("color", JString "red")]%string
  /\ _iter_styles
       (Styles [mkProperty "name" (JString "x");
                mkProperty "color" (JString "red")])
     = [("color"%string, JString "red")].
Proof.
  split; [reflexivity|].
  exact (proj1 (typed_and_plain_styles_agree
                  (num := Q)
                  [mkProperty "name" (JString "x");
                   mkProperty "color" (JString "red")]
                  eq_refl)).
Defined.

(** A selector whose two pairs are both left out. *)
Lemma selector_without_declarations_witness :
  stylesheet_text
    (Rules [(".sel"%string,
             CSSStyles [("bg_color"%string, JString ""); ("color"%string, JNull)])])
  = CssText (".sel {" ++ newline ++ "}")%string.
Proof.
  refine (proj2 (selector_without_declarations
                   ".sel"
                   (CSSStyles [("bg_color"%string, JString "");
                               ("color"%string, JNull)])
                   [] [] _)).
  intros a value Hin. simpl in Hin.
  destruct Hin as [E | [E | []]]; inversion E; reflexivity.
Defined.

(** The three cases of the recomputation: a child, a root, an element
    that is not displayed. *)
Lemma update_bbox_rule_witness :
  _bbox (_update_bbox example_child) = Some (new_BBox 4 4 11 20)%Q
  /\ _bbox (_update_bbox example_root) = Some (new_BBox 0 0 11 20)%Q
  /\ _bbox (_update_bbox example_hidden) = Some (new_BBox 0 0 0 0)%Q.
Proof.
  split; [|split].
  - exact (proj1 (update_bbox_rule example_child)
                 example_parent eq_refl eq_refl).
  - exact (proj1 (proj2 (update_bbox_rule example_root)) eq_refl eq_refl).
  - exact (proj2 (proj2 (update_bbox_rule example_hidden)) eq_refl).
Defined.

(** A displayed root measured at left 5.6 has left 0, not 6. *)
Lemma root_bbox_left_is_not_measured_left :
  _is_displayed example_root = true
  /\ parent example_root = None
  /\ option_map (@left Q) (_bbox (_update_bbox example_root)) = Some 0%Q
  /\ num_round (rect_left (getBoundingClientRect (el example_root))) = 6%Q
  /\ option_map (@left Q) (_bbox (_update_bbox example_root))
     <> Some (num_round (rect_left (getBoundingClientRect (el example_root)))).
Proof.
  repeat split. vm_compute. discriminate.
Qed.



(** A button with the classes [a] and [b]. *)
Lemma classes_and_render_order_witness :
  classes example_root = ["bk-button"%string]
  /\ applied_classes (calls (render example_root))
     = ["bk-button"; "a"; "b"]%string.
Proof.
  exact (proj2 (proj2 (proj2 (classes_and_render_order example_root)))
               eq_refl eq_refl).
Defined.

(** The query [classes] of a button with the classes [a] and [b] holds
    the structural class alone. *)
Lemma classes_query_omits_model_classes :
  UIElement.type (model example_root) = "button"%string
  /\ UIElement.classes (model example_root) = ["a"; "b"]%string
  /\ classes example_root = ["bk-button"%string]
  /\ classes example_root <> ["bk-button"; "a"; "b"]%string.
Proof.
  repeat split. vm_compute. discriminate.
Qed.

(** The snapshot of a view with a cached box leaves the view as it is;
    the snapshot of a view without one caches the box it computes. *)
Lemma serializable_state_snapshot_witness :
  snd (serializable_state example_hidden) = example_hidden
  /\ exists b, _bbox (_update_bbox example_root) = Some b
               /\ snd (serializable_state example_root)
                  = with__bbox (Some b) example_root.
Proof.
  split.
  - destruct (serializable_state_snapshot example_hidden)
      as [b (_ & _ & _ & Hcached & _)].
    exact (proj2 (Hcached (new_BBox 0 0 11 20)%Q eq_refl)).
  - destruct (serializable_state_snapshot example_root)
      as [b (_ & _ & Hview & _ & Hnone)].
    exists b. split; [exact (Hnone eq_refl) | exact Hview].
Defined.

(** The first snapshot of an initialized root changes its cached box. *)
Lemma serializable_state_fills_the_cache :
  _bbox example_root = None
  /\ fst (serializable_state example_root)
     = Some [("type"%string, SPlain Q (JString "button"));
             ("bbox"%string, SBox (0, 0, 11, 20)%Q)]
  /\ _bbox (snd (serializable_state example_root))
     = Some (new_BBox 0 0 11 20)%Q
  /\ snd (serializable_state example_root) <> example_root.
Proof.
  repeat split.
  intro Hsame. apply (f_equal (@_bbox Q)) in Hsame.
  vm_compute in Hsame. discriminate.
Qed.

(* ================================================================== *)
(** ** Further properties of the methods *)

Section FurtherProperties.
Context {num : Type} `{HostNumber num} `{Imports}.

Implicit Types (v : View num) (cs : list Call).

(** *** Normalized names *)

Lemma replace_underscores_append (a b : string) :
  replace_underscores (a ++ b)%string
  = (replace_underscores a ++ replace_underscores b)%string.
Proof. induction a as [|c a IH]; simpl; [reflexivity | now rewrite IH]. Qed.

(** X1. The normalized name of an attribute has the length of the
    attribute and no underscore; normalizing it again changes nothing;
    the normalization goes through a concatenation; and an attribute
    without underscore is its own normalized name. *)
Theorem normalized_name_has_no_underscore (attr : string) :
  String.length (replace_underscores attr) = String.length attr
  /\ ~ In "_"%char (list_ascii_of_string (replace_underscores attr))
  /\ replace_underscores (replace_underscores attr) = replace_underscores attr
  /\ (forall prefix : string,
        replace_underscores (prefix ++ attr)%string
        = (replace_underscores prefix ++ replace_underscores attr)%string)
  /\ (~ In "_"%char (list_ascii_of_string attr) ->
      replace_underscores attr = attr).
Proof.
  split; [|split; [|split; [|split]]].
  - induction attr as [|c rest IH]; simpl; [reflexivity | now rewrite IH].
  - induction attr as [|c rest IH]; simpl; [tauto|].
    destruct (Ascii.eqb c "_") eqn:Hc; intros [Hhead | Htail];
      try (now apply IH).
    apply Ascii.eqb_neq in Hc. congruence.
  - induction attr as [|c rest IH]; simpl; [reflexivity|].
    rewrite IH. destruct (Ascii.eqb c "_") eqn:Hc; [reflexivity|].
    now rewrite Hc.
  - intro prefix. apply replace_underscores_append.
  - induction attr as [|c rest IH]; simpl; [reflexivity|].
    intro Hnone. destruct (Ascii.eqb c "_") eqn:Hc.
    + apply Ascii.eqb_eq in Hc. exfalso. apply Hnone. left. now symmetry.
    + rewrite IH; [reflexivity|]. intro Hin. apply Hnone. now right.
Qed.

(** *** What inline styles assign and trace *)

Lemma in_style_calls_assign (recognized : string -> bool)
  (entry : string * JSValue) (name s : string) :
  In (StyleAssign name s) (spec_style_calls recognized entry) ->
  snd entry = JString s
  /\ find recognized (name_variants (replace_underscores (fst entry)))
     = Some name.
Proof.
  unfold spec_style_calls.
  destruct (find recognized _) as [variant|].
  - destruct (snd entry); simpl; try tauto.
    intros [Heq | []]. injection Heq as -> ->. now split.
  - simpl. intros [Heq | []]. discriminate.
Qed.

Lemma in_style_calls_trace (recognized : string -> bool)
  (entry : string * JSValue) (message : string) :
  In (LoggerTrace message) (spec_style_calls recognized entry) ->
  find recognized (name_variants (replace_underscores (fst entry))) = None
  /\ message
     = ("unknown CSS property '" ++ replace_underscores (fst entry) ++ "'")%string.
Proof.
  unfold spec_style_calls.
  destruct (find recognized _) as [variant|].
  - destruct (snd entry); simpl; try tauto.
    intros [Heq | []]. discriminate.
  - simpl. intros [Heq | []]. injection Heq as <-. now split.
Qed.

Lemma in_calls_apply_styles (c : Call) v :
  In c (calls (_apply_styles v))
  <-> In c (calls v)
      \/ exists entry,
           In entry (_iter_styles (UIElement.styles (model v)))
           /\ In c (spec_style_calls (style_has (el v)) entry).
Proof.
  rewrite apply_styles_calls. cbn [calls after_calls].
  rewrite in_app_iff, in_flat_map. reflexivity.
Qed.

(** X2. An assignment that [_apply_styles] adds is of a name that the
    host recognizes, and that is the normalized name of an enumerated
    attribute or this name with one of the two prefixes; the value
    assigned is the string that the attribute has in the source. *)
Theorem assigned_names_are_recognized v (name s : string) :
  In (StyleAssign name s) (calls (_apply_styles v)) ->
  In (StyleAssign name s) (calls v)
  \/ (style_has (el v) name = true
      /\ exists attr,
           In (attr, JString s) (_iter_styles (UIElement.styles (model v)))
           /\ In name (name_variants (replace_underscores attr))).
Proof.
  rewrite in_calls_apply_styles.
  intros [Hold | [[a value] [Hentry Hcall]]]; [now left | right].
  apply in_style_calls_assign in Hcall. cbn [fst snd] in Hcall.
  destruct Hcall as [-> Hfind]. apply find_some in Hfind.
  destruct Hfind as [Hvariant Hknown].
  split; [exact Hknown|]. now exists a.
Qed.

(** X3. An attribute none of whose three names the host recognizes is
    traced, whatever its value is; and a trace that [_apply_styles] adds
    is of such an attribute and carries its normalized name. *)
Theorem unknown_properties_are_traced v :
  (forall attr value,
      In (attr, value) (_iter_styles (UIElement.styles (model v))) ->
      (forall name, In name (name_variants (replace_underscores attr)) ->
                    style_has (el v) name = false) ->
      In (LoggerTrace
            ("unknown CSS property '" ++ replace_underscores attr ++ "'")%string)
         (calls (_apply_styles v)))
  /\ (forall message,
        In (LoggerTrace message) (calls (_apply_styles v)) ->
        In (LoggerTrace message) (calls v)
        \/ exists attr value,
             In (attr, value) (_iter_styles (UIElement.styles (model v)))
             /\ message
                = ("unknown CSS property '" ++ replace_underscores attr ++ "'")%string
             /\ forall name,
                  In name (name_variants (replace_underscores attr)) ->
                  style_has (el v) name = false).
Proof.
  split.
  - intros a value Hentry Hnone. rewrite in_calls_apply_styles. right.
    exists (a, value). split; [exact Hentry|].
    unfold spec_style_calls. cbn [fst snd].
    destruct (find _ _) as [variant|] eqn:Hfind; [|now left].
    apply find_some in Hfind. destruct Hfind as [Hin Hknown].
    rewrite (Hnone _ Hin) in Hknown. discriminate.
  - intro message. rewrite in_calls_apply_styles.
    intros [Hold | [[a value] [Hentry Hcall]]]; [now left | right].
    apply in_style_calls_trace in Hcall. cbn [fst] in Hcall.
    destruct Hcall as [Hfind ->].
    exists a, value. repeat split; [exact Hentry|].
    intros name Hin. exact (find_none _ _ Hfind _ Hin).
Qed.

(** X4. [_apply_styles] changes nothing of the view but the calls it
    records; what it adds are assignments and traces only, at most one
    for each enumerated pair. *)
Theorem inline_styles_frame v :
  exists cs,
    _apply_styles v = after_calls cs v
    /\ Forall (fun c => match c with
                        | StyleAssign _ _ | LoggerTrace _ => True
                        | _ => False
                        end) cs
    /\ (length cs <= length (_iter_styles (UIElement.styles (model v))))%nat.
Proof.
  eexists. split; [apply apply_styles_calls|].
  generalize (_iter_styles (UIElement.styles (model v))) as entries.
  induction entries as [|entry entries [IHall IHlen]]; simpl.
  - split; [constructor | lia].
  - assert (Hone :
      Forall (fun c => match c with
                       | StyleAssign _ _ | LoggerTrace _ => True
                       | _ => False
                       end) (spec_style_calls (style_has (el v)) entry)
      /\ (length (spec_style_calls (style_has (el v)) entry) <= 1)%nat).
    { unfold spec_style_calls.
      destruct (find _ _); [destruct (snd entry)|]; simpl;
        (split; [repeat constructor | lia]). }
    destruct Hone as [Hall Hlen]. split.
    + apply Forall_app. now split.
    + rewrite length_app. lia.
Qed.

(** *** Stylesheet maps *)

Lemma length_declarations (entries : list (string * JSValue)) :
  length (flat_map spec_declaration entries)
  = length (filter (fun entry => nonempty_string (snd entry)) entries).
Proof.
  induction entries as [|[a value] entries IH]; simpl; [reflexivity|].
  rewrite length_app, IH. unfold spec_declaration; cbn [fst snd].
  destruct value as [s| | |]; try reflexivity.
  destruct s; reflexivity.
Qed.

(** X5. The lines of a stylesheet map are the lines of its selectors one
    after the other: the lines of two maps put together are the lines
    of the first followed by the lines of the second.  There are two
    lines for each selector and one for each of its pairs whose value
    is a string that is not empty; the empty map gives the empty text. *)
Theorem stylesheet_lines_compose (xs ys : list (string * StyleSource)) :
  output_lines (xs ++ ys) = output_lines xs ++ output_lines ys
  /\ length (output_lines xs)
     = (2 * length xs
        + length (filter (fun entry => nonempty_string (snd entry))
                         (flat_map (fun entry => _iter_styles (snd entry)) xs)))%nat
  /\ stylesheet_text (Rules []) = CssText "".
Proof.
  split; [|split].
  - rewrite !output_lines_spec. apply flat_map_app.
  - rewrite output_lines_spec.
    induction xs as [|[selector styles] xs IH]; simpl; [reflexivity|].
    rewrite !length_app, IH, filter_app, length_app, length_declarations.
    simpl. lia.
  - reflexivity.
Qed.

(** *** Rendering *)


Lemma render_view v :
  exists cs, render v = _apply_visible (after_calls cs v).
Proof.
  unfold render, _apply_stylesheets.
  rewrite apply_styles_calls, !call_after_calls, !after_calls_app.
  eexists. reflexivity.
Qed.


(** X7. After [render] the sheet [_display] is the same sheet as
    before, and its text follows the model alone: empty for a visible
    model, the rule that hides the host for one that is not, whatever
    the inline styles are.  Applying the override twice is applying it
    once. *)
Theorem display_sheet_follows_visibility v :
  css (_display (render v))
  = (if UIElement.visible (model v)
     then ""
     else ":host { display: none !important; }")%string
  /\ sheet_id (_display (render v)) = sheet_id (_display v)
  /\ _apply_visible (_apply_visible v) = _apply_visible v
  /\ (forall styles : StyleSource,
        _display (render (set_styles styles v)) = _display (render v)).
Proof.
  split; [|split; [|split]].
  - destruct (render_view v) as [cs ->]. unfold _apply_visible.
    cbn [model after_calls].
    now destruct (UIElement.visible (model v)).
  - destruct (render_view v) as [cs ->]. unfold _apply_visible.
    cbn [model after_calls].
    now destruct (UIElement.visible (model v)).
  - unfold _apply_visible.
    destruct (UIElement.visible (model v)) eqn:Hvisible;
      cbn [model with__display]; rewrite Hvisible; reflexivity.
  - intro styles0.
    destruct (render_view v) as [cs ->].
    destruct (render_view (set_styles styles0 v)) as [cs' ->].
    unfold _apply_visible. cbn [model after_calls set_styles with_model
                                 UIElement.visible].
    now destruct (UIElement.visible (model v)).
Qed.


(** *** The cached box *)

Lemma bbox_defined v : exists b, fst (bbox v) = Some b.
Proof.
  unfold bbox. destruct (_bbox v) as [b|] eqn:Hb; cbn [fst].
  - exists b. exact Hb.
  - destruct (update_bbox_view v) as [b [Hnew _]]. exists b. exact Hnew.
Qed.

Lemma bbox_again v : bbox (snd (bbox v)) = (fst (bbox v), snd (bbox v)).
Proof.
  unfold bbox. destruct (_bbox v) as [b|] eqn:Hb; cbn [fst snd].
  - rewrite Hb. cbv iota. now rewrite Hb.
  - destruct (update_bbox_view v) as [b [Hnew _]].
    rewrite Hnew. cbv iota. now rewrite Hnew.
Qed.

(** X9. The query [bbox] always gives a box, which is then the cached
    one; a second query gives the same box and changes nothing; and
    once a box is cached the query gives it whatever the layout of the
    element has become. *)
Theorem bbox_query_is_cached v :
  (exists b, fst (bbox v) = Some b /\ _bbox (snd (bbox v)) = Some b)
  /\ bbox (snd (bbox v)) = (fst (bbox v), snd (bbox v))
  /\ (forall b (e : HTMLElement num),
        _bbox v = Some b -> bbox (with_el e v) = (Some b, with_el e v)).
Proof.
  unfold bbox. split; [|split].
  - destruct (_bbox v) as [b|] eqn:Hb; cbn [fst snd].
    + exists b. now rewrite Hb.
    + destruct (update_bbox_view v) as [b [Hnew _]]. exists b. now rewrite Hnew.
  - fold (bbox v). apply bbox_again.
  - intros b e Hb.
    assert (Hb' : _bbox (with_el e v) = Some b) by exact Hb.
    cbv zeta. rewrite Hb'. cbv iota. now rewrite Hb'.
Qed.

(** X10. A recomputation does not read the cached box: it gives the
    same view whatever was cached, and doing it twice is doing it once.
    Each of the four fields of the box it caches is a rounded number. *)
Theorem update_bbox_recomputes_from_scratch v :
  _update_bbox (_update_bbox v) = _update_bbox v
  /\ (forall cached, _update_bbox (with__bbox cached v) = _update_bbox v)
  /\ (exists b,
        _bbox (_update_bbox v) = Some b
        /\ (exists x, left b = num_round x)
        /\ (exists x, top b = num_round x)
        /\ (exists x, width b = num_round x)
        /\ (exists x, height b = num_round x)).
Proof.
  split; [reflexivity|]. split; [reflexivity|].
  unfold _update_bbox, new_BBox_default. cbn [_bbox with__bbox].
  destruct (offsetParent (el v)); [destruct (parent v)|];
    eexists; (split; [reflexivity|]); cbn [left top width height];
    repeat split; try (eexists; reflexivity);
    exists num_zero; symmetry; apply num_round_zero.
Qed.

(** *** The resize watcher *)


(** *** The export *)

(** X12. [export] gives a layer whose size is the width and the height
    of the box that the query [bbox] gives, with the backend [svg] for
    the type [svg] and the backend [canvas] for the types [auto] and
    [png] and when no type is given, and with the density asked for,
    [true] when none is.  It changes the view as the query [bbox] does;
    for an element that is not displayed and has no cached box the
    layer is zero wide and zero high. *)
Theorem export_is_sized_by_the_bbox (type : option ExportType)
  (hidpi : option bool) v :
  exists b layer,
    fst (bbox v) = Some b
    /\ fst (export type hidpi v) = Some layer
    /\ layer_size layer = Some (width b, height b)
    /\ (output_backend layer = backend_svg <-> type = Some type_svg)
    /\ layer_hidpi layer = match hidpi with Some h => h | None => true end
    /\ snd (export type hidpi v) = snd (bbox v)
    /\ (_bbox v = None -> _is_displayed v = false ->
        layer_size layer = Some (num_zero, num_zero)).
Proof.
  destruct (bbox_defined v) as [b Hb].
  unfold export.
  destruct (bbox v) as [result v'] eqn:Hquery. cbn [fst snd] in *.
  subst result.
  eexists b, _. split; [reflexivity|]. split; [reflexivity|].
  cbn [layer_size output_backend layer_hidpi resize new_CanvasLayer].
  repeat split.
  - destruct type as [[| |]|]; intro Hbackend; try discriminate; reflexivity.
  - intros ->. reflexivity.
  - intros Hnone Hhidden.
    unfold bbox in Hquery. rewrite Hnone in Hquery.
    cbv zeta iota in Hquery.
    assert (Hbox := f_equal fst Hquery). cbn [fst] in Hbox.
    unfold _update_bbox in Hbox.
    rewrite (is_displayed_false _ Hhidden) in Hbox.
    cbn [_bbox with__bbox] in Hbox. injection Hbox as <-. reflexivity.
Qed.

(** *** The snapshot *)

Lemma object_get_set_same {A : Type} (key : string) (x : A)
  (object : list (string * A)) :
  object_get key (object_set key x object) = Some x.
Proof.
  induction object as [|[k y] object IH]; simpl.
  - now rewrite String.eqb_refl.
  - destruct (String.eqb k key) eqn:Hk; simpl; now rewrite Hk.
Qed.

Lemma object_get_set_other {A : Type} (key key' : string) (x : A)
  (object : list (string * A)) :
  key' <> key ->
  object_get key' (object_set key x object) = object_get key' object.
Proof.
  intro Hother. induction object as [|[k y] object IH]; simpl.
  - destruct (String.eqb key key') eqn:Hk; [|reflexivity].
    apply String.eqb_eq in Hk. congruence.
  - destruct (String.eqb k key) eqn:Hk; simpl.
    + apply String.eqb_eq in Hk. subst k.
      destruct (String.eqb key key') eqn:Hk'; [|reflexivity].
      apply String.eqb_eq in Hk'. congruence.
    + destruct (String.eqb k key'); [reflexivity | exact IH].
Qed.

Lemma object_get_map {A B : Type} (f : A -> B) (key : string)
  (object : list (string * A)) :
  object_get key (map (fun '(k, x) => (k, f x)) object)
  = option_map f (object_get key object).
Proof.
  induction object as [|[k y] object IH]; simpl; [reflexivity|].
  destruct (String.eqb k key); [reflexivity | exact IH].
Qed.

(** X13. In the snapshot the field [bbox] holds the four numbers of the
    box that the query [bbox] gives, also when the inherited snapshot
    has a field of this name; every other field is the one of the
    inherited snapshot, and there is no field that the inherited
    snapshot does not have. *)
Theorem snapshot_fields v :
  exists b snapshot,
    fst (bbox v) = Some b
    /\ fst (serializable_state v) = Some snapshot
    /\ object_get "bbox" snapshot = Some (SBox (box b))
    /\ (forall key : string,
          key <> "bbox"%string ->
          object_get key snapshot
          = option_map (SPlain num) (object_get key super_serializable_state)).
Proof.
  destruct (bbox_defined v) as [b Hb].
  unfold serializable_state.
  destruct (bbox v) as [result v'] eqn:Hquery. cbn [fst] in *. subst result.
  eexists b, _. split; [reflexivity|]. split; [reflexivity|]. split.
  - apply object_get_set_same.
  - intros key Hkey. rewrite object_get_set_other by exact Hkey.
    apply object_get_map.
Qed.

End FurtherProperties.

(* ================================================================== *)
(** ** The further properties on concrete views *)

(** The attribute [color] has no underscore. *)
Lemma normalized_name_has_no_underscore_witness :
  replace_underscores "color" = "color"%string.
Proof.
  apply (proj2 (proj2 (proj2 (proj2
           (normalized_name_has_no_underscore "color"))))).
  simpl. intros [E | [E | [E | [E | [E | []]]]]]; discriminate E.
Defined.

(** The assignment of [color] that the styles of the button give. *)
Lemma assigned_names_are_recognized_witness :
  In (StyleAssign "color" "red") (calls (_apply_styles example_root))
  /\ (In (StyleAssign "color" "red") (calls example_root)
      \/ (style_has (el example_root) "color" = true
          /\ exists attr,
               In (attr, JString "red")
                  (_iter_styles (UIElement.styles (model example_root)))
               /\ In "color"%string
                     (name_variants (replace_underscores attr)))).
Proof.
  assert (Hin : In (StyleAssign "color" "red")
                   (calls (_apply_styles example_root)))
    by (simpl; right; left; reflexivity).
  split; [exact Hin|].
  exact (assigned_names_are_recognized example_root "color" "red" Hin).
Defined.

(** The attribute [foo_bar] of the button, which the host does not
    recognize, and the trace it gives. *)
Lemma unknown_properties_are_traced_witness :
  In (LoggerTrace "unknown CSS property 'foo-bar'")
     (calls (_apply_styles example_root))
  /\ (In (LoggerTrace "unknown CSS property 'foo-bar'") (calls example_root)
      \/ exists attr value,
           In (attr, value)
              (_iter_styles (UIElement.styles (model example_root)))
           /\ "unknown CSS property 'foo-bar'"%string
              = ("unknown CSS property '" ++ replace_underscores attr ++ "'")%string
           /\ forall name,
                In name (name_variants (replace_underscores attr)) ->
                style_has (el example_root) name = false).
Proof.
  assert (Hin : In (LoggerTrace "unknown CSS property 'foo-bar'")
                   (calls (_apply_styles example_root))).
  { refine (proj1 (unknown_properties_are_traced example_root)
                  "foo_bar"%string JNull _ _).
    - simpl. right. left. reflexivity.
    - intros name [<- | [<- | [<- | []]]]; reflexivity. }
  split; [exact Hin|].
  exact (proj2 (unknown_properties_are_traced example_root) _ Hin).
Defined.

(** The element of the hidden view is laid out again: the query still
    gives the cached box. *)
Lemma bbox_query_is_cached_witness :
  bbox (with_el example_el example_hidden)
  = (Some (new_BBox 0 0 11 20)%Q, with_el example_el example_hidden).
Proof.
  exact (proj2 (proj2 (bbox_query_is_cached example_hidden))
               (new_BBox 0 0 11 20)%Q example_el eq_refl).
Defined.


(** The export of an element that is not displayed and has no cached
    box. *)
Lemma export_is_sized_by_the_bbox_witness :
  exists layer,
    fst (export None None (with__bbox None example_hidden)) = Some layer
    /\ layer_size layer = Some (0, 0)%Q.
Proof.
  destruct (export_is_sized_by_the_bbox
              None None (with__bbox None example_hidden))
    as [b [layer (_ & Hlayer & _ & _ & _ & _ & Hzero)]].
  exists layer. split; [exact Hlayer | exact (Hzero eq_refl eq_refl)].
Defined.

(** The field [type] of the inherited snapshot is in the snapshot. *)
Lemma snapshot_fields_witness :
  exists snapshot,
    fst (serializable_state example_root) = Some snapshot
    /\ object_get "type" snapshot = Some (SPlain Q (JString "button")).
Proof.
  destruct (snapshot_fields example_root)
    as [b [snapshot (_ & Hsnapshot & _ & Hother)]].
  exists snapshot. split; [exact Hsnapshot|].
  apply (Hother "type"%string). discriminate.
Defined.
